(** * AI Stock Insights backend: [main.py] embedded and checked against its specification

    The development follows the layout of [main.py]:

    - [PyRuntime]: the Python built-ins the module relies on (exceptions,
      [str] methods, [float] arithmetic, [float()], [round], fixed-point
      formatting, [sum], [max], [min], negative indexing and slices);
    - the CSV fetcher and parser, [fetch_historical_prices];
    - the heuristic analyzer, [generate_ai_insights];
    - the HTTP handlers, including the favorites listing.

    Python [float]s are IEEE 754 binary64 numbers and are modelled by Rocq's
    primitive [float]s; text is modelled by [string] (sequences of 8-bit
    characters; the models of the [str] methods are those of ASCII text). *)

From Stdlib Require Import ZArith List String Ascii Floats Lia Bool DecimalString.
From stdpp Require Import gmap strings.

Set Warnings "-inexact-float".
Local Open Scope string_scope.

(** ** Exceptions and results *)

Module PyRuntime.

(** The exceptions that can leave the functions of [main.py]. *)
Inductive PyError : Type :=
  | HTTPException (status_code : Z) (detail : string)
  | ZeroDivisionError
  | ValueError
  | KeyError (key : string)
  | IndexError
  | RequestException
  | StoreError.

Inductive Result (A : Type) : Type :=
  | Ok (a : A)
  | Raise (e : PyError).
Arguments Ok {A} a.
Arguments Raise {A} e.

#[global] Instance result_ret : MRet Result := fun A a => Ok a.
#[global] Instance result_bind : MBind Result := fun A B k c =>
  match c with
  | Ok a => k a
  | Raise e => Raise e
  end.

Definition is_ok {A} (c : Result A) : bool :=
  match c with Ok _ => true | Raise _ => false end.

(** ** [str] methods *)

Definition code (c : ascii) : nat := nat_of_ascii c.

Definition in_range (lo hi : nat) (c : ascii) : bool :=
  (lo <=? code c)%nat && (code c <=? hi)%nat.

(** [str.isspace] on ASCII: TAB..CR, FS..US and the space. *)
Definition is_space (c : ascii) : bool :=
  in_range 9 13 c || in_range 28 32 c.

Definition is_digit (c : ascii) : bool := in_range 48 57 c.

Definition lower_char (c : ascii) : ascii :=
  if in_range 65 90 c then ascii_of_nat (code c + 32) else c.

Definition upper_char (c : ascii) : ascii :=
  if in_range 97 122 c then ascii_of_nat (code c - 32) else c.

Fixpoint str_map (f : ascii -> ascii) (s : string) : string :=
  match s with
  | EmptyString => EmptyString
  | String c s' => String (f c) (str_map f s')
  end.

Definition lower : string -> string := str_map lower_char.
Definition upper : string -> string := str_map upper_char.

Fixpoint lstrip_by (sp : ascii -> bool) (s : string) : string :=
  match s with
  | EmptyString => EmptyString
  | String c s' => if sp c then lstrip_by sp s' else s
  end.

Fixpoint rstrip_by (sp : ascii -> bool) (s : string) : string :=
  match s with
  | EmptyString => EmptyString
  | String c s' =>
      match rstrip_by sp s' with
      | EmptyString => if sp c then EmptyString else String c EmptyString
      | r => String c r
      end
  end.

Definition strip_by (sp : ascii -> bool) (s : string) : string :=
  rstrip_by sp (lstrip_by sp s).

(** [s.strip()] *)
Definition strip : string -> string := strip_by is_space.

(** [s.split(sep)] for a one-character separator: never empty, keeps empty
    fields. *)
Fixpoint split (sep : ascii) (s : string) : list string :=
  match s with
  | EmptyString => [EmptyString]
  | String c s' =>
      if Ascii.eqb c sep then EmptyString :: split sep s'
      else match split sep s' with
           | [] => [String c EmptyString]
           | w :: ws => String c w :: ws
           end
  end.

(** [s.startswith(p)] *)
Definition startswith (p s : string) : bool := String.prefix p s.

Fixpoint all_chars (f : ascii -> bool) (s : string) : bool :=
  match s with
  | EmptyString => true
  | String c s' => f c && all_chars f s'
  end.

(** [s.isdigit()]: at least one character, all of them digits. *)
Definition isdigit (s : string) : bool :=
  match s with
  | EmptyString => false
  | _ => all_chars is_digit s
  end.

(** Truth value of a [str]. *)
Definition str_truthy (s : string) : bool :=
  match s with EmptyString => false | _ => true end.

(** ** Sequences: negative indices and tail slices *)

(** [l[-k]] for [k >= 1]. *)
Definition index_from_end {A} (l : list A) (k : nat) : Result A :=
  if (k <=? length l)%nat then
    match l !! (length l - k)%nat with
    | Some x => Ok x
    | None => Raise IndexError
    end
  else Raise IndexError.

(** [l[-k:]] for [k >= 1]: the last [k] items, or all of [l] when it is
    shorter. *)
Definition last_n {A} (k : nat) (l : list A) : list A :=
  drop (length l - k) l.

(** [l[i]] for [i >= 0]. *)
Definition index {A} (l : list A) (i : nat) : Result A :=
  match l !! i with
  | Some x => Ok x
  | None => Raise IndexError
  end.

(** ** [float] arithmetic *)

Local Open Scope float_scope.

(** [float(n)] for a small non-negative [int]. *)
Definition float_of_nat (n : nat) : float :=
  of_uint63 (Uint63.of_Z (Z.of_nat n)).

(** [a / b]: true division raises on a zero divisor of either sign. *)
Definition truediv (a b : float) : Result float :=
  if b =? 0 then Raise ZeroDivisionError else Ok (a / b).

(** Truth value of a [float]: false for [0.0] and [-0.0] only. *)
Definition float_truthy (x : float) : bool := negb (x =? 0).

(** [sum(l)]: the [int] start value [0] is converted on the first addition,
    the items are added from left to right, as CPython up to 3.11 does (from
    3.12 on the additions are compensated; the properties below hold for the
    averages whatever their last bits, and the sums of the examples are
    exact). *)
Definition sum (l : list float) : float := fold_left add l 0.

(** [max(a, b)] and [min(a, b)] keep the first argument unless the second
    compares strictly greater (resp. smaller). *)
Definition max2 (a b : float) : float := if a <? b then b else a.
Definition min2 (a b : float) : float := if b <? a then b else a.

(** [max(l)] and [min(l)] over a list; an empty list raises [ValueError]. *)
Definition max_list (l : list float) : Result float :=
  match l with
  | [] => Raise ValueError
  | x :: xs => Ok (fold_left max2 xs x)
  end.

Definition min_list (l : list float) : Result float :=
  match l with
  | [] => Raise ValueError
  | x :: xs => Ok (fold_left min2 xs x)
  end.

(** *** Decimal conversions

    [float()], [round(x, n)] and the format specification [.nf] all go through
    correctly rounded conversions between binary64 and decimal. *)

Local Open Scope Z_scope.

(** [num / den] rounded to the nearest integer, ties to even
    ([num >= 0], [den > 0]). *)
Definition div_half_even (num den : Z) : Z :=
  let q := num / den in
  let r := num mod den in
  match 2 * r ?= den with
  | Lt => q
  | Gt => q + 1
  | Eq => if Z.even q then q else q + 1
  end.

(** The integer nearest to [m * 2^e * 10^nd], ties to even. *)
Definition scaled_round (nd : nat) (m : positive) (e : Z) : Z :=
  if 0 <=? e then Z.pos m * 2 ^ e * 10 ^ Z.of_nat nd
  else div_half_even (Z.pos m * 10 ^ Z.of_nat nd) (2 ^ (- e)).

(** The binary64 number nearest to [(-1)^neg * M * 10^e10], ties to even
    (what [strtod] returns for the decimal numeral). *)
Definition decimal_to_float (neg : bool) (M : Z) (e10 : Z) : float :=
  match M with
  | Z.pos p =>
      SF2Prim
        (if 0 <=? e10
         then binary_round prec emax neg (Z.to_pos (Z.pos p * 10 ^ e10)) 0
         else SFdiv prec emax (S754_finite neg p 0)
                (S754_finite false (Z.to_pos (10 ^ (- e10))) 0))
  | _ => if neg then neg_zero else zero
  end.

(** [round(x, nd)] for [0 <= nd <= 22]: infinities, NaN and zeros round to
    themselves, other values to the nearest multiple of [10^-nd]. *)
Definition round (x : float) (nd : nat) : float :=
  match Prim2SF x with
  | S754_finite s m e => decimal_to_float s (scaled_round nd m e) (- Z.of_nat nd)
  | _ => x
  end.

Definition digit_char (d : Z) : ascii := ascii_of_nat (48 + Z.to_nat d).

Definition string_of_nat_Z (k : Z) : string :=
  NilZero.string_of_uint (N.to_uint (Z.to_N k)).

Fixpoint zeros (n : nat) : string :=
  match n with
  | O => EmptyString
  | S n' => String "0" (zeros n')
  end.

(** The digits of [k / 10^nd] with exactly [nd] decimals. *)
Definition fixed_point (nd : nat) (k : Z) : string :=
  let ds := string_of_nat_Z k in
  let ds := (zeros (S nd - String.length ds) ++ ds)%string in
  let ip := (String.length ds - nd)%nat in
  match nd with
  | O => ds
  | _ => (substring 0 ip ds ++ "." ++ substring ip nd ds)%string
  end.

(** [format(x, ".{nd}f")]. *)
Definition format_f (nd : nat) (x : float) : string :=
  match Prim2SF x with
  | S754_nan => "nan"
  | S754_infinity s => if s then "-inf" else "inf"
  | S754_zero s => ((if s then "-" else "") ++ fixed_point nd 0)%string
  | S754_finite s m e =>
      ((if s then "-" else "") ++ fixed_point nd (scaled_round nd m e))%string
  end.

(** *** [float(s)] and [int(s)] on text *)

(** Whitespace skipped around a numeral: TAB..CR and the space. *)
Definition is_c_space (c : ascii) : bool :=
  in_range 9 13 c || Ascii.eqb c " ".

(** An underscore in a numeral must stand between two digits. *)
Fixpoint underscores_ok (prev : option ascii) (s : string) : bool :=
  match s with
  | EmptyString =>
      match prev with
      | Some p => negb (Ascii.eqb p "_")
      | None => true
      end
  | String c s' =>
      (if Ascii.eqb c "_" then
         match prev with
         | Some p => is_digit p
         | None => false
         end
       else
         match prev with
         | Some p => negb (Ascii.eqb p "_") || is_digit c
         | None => true
         end)
      && underscores_ok (Some c) s'
  end.

Fixpoint remove_underscores (s : string) : string :=
  match s with
  | EmptyString => EmptyString
  | String c s' =>
      if Ascii.eqb c "_" then remove_underscores s'
      else String c (remove_underscores s')
  end.

(** The longest prefix of digits, and the rest. *)
Fixpoint span_digits (s : string) : string * string :=
  match s with
  | EmptyString => (EmptyString, EmptyString)
  | String c s' =>
      if is_digit c then
        let (ds, rest) := span_digits s' in (String c ds, rest)
      else (EmptyString, s)
  end.

Fixpoint digits_value_from (acc : Z) (s : string) : Z :=
  match s with
  | EmptyString => acc
  | String c s' => digits_value_from (10 * acc + Z.of_nat (code c - 48)) s'
  end.

Definition digits_value : string -> Z := digits_value_from 0.

Definition take_sign (s : string) : bool * string :=
  match s with
  | String "-" s' => (true, s')
  | String "+" s' => (false, s')
  | _ => (false, s)
  end.

(** What follows the mantissa: nothing, or [e] or [E], an optional sign and
    at least one digit, up to the end of the text. *)
Definition parse_exponent (s : string) : option Z :=
  match s with
  | EmptyString => Some 0
  | String c s' =>
      if Ascii.eqb c "e" || Ascii.eqb c "E" then
        let (neg, s'') := take_sign s' in
        match span_digits s'' with
        | (String d ds, EmptyString) =>
            let v := digits_value (String d ds) in
            Some (if neg then - v else v)
        | _ => None
        end
      else None
  end.

(** An unsigned decimal numeral [digits [. digits] [exponent]] or
    [. digits [exponent]], as the pair of its digits read as an integer and
    its power of ten. *)
Definition parse_number (s : string) : option (Z * Z) :=
  let (ip, r1) := span_digits s in
  let (fp, r2) :=
    match r1 with
    | String "." r => span_digits r
    | _ => (EmptyString, r1)
    end in
  match (ip ++ fp)%string with
  | EmptyString => None
  | ds =>
      match parse_exponent r2 with
      | Some e => Some (digits_value ds, e - Z.of_nat (String.length fp))
      | None => None
      end
  end.

(** [float(s)] *)
Definition float_of_str (s : string) : Result float :=
  if underscores_ok None s then
    let (neg, body) := take_sign (strip_by is_c_space (remove_underscores s)) in
    let name := lower body in
    if String.eqb name "inf" || String.eqb name "infinity" then
      Ok (if neg then neg_infinity else infinity)
    else if String.eqb name "nan" then Ok nan
    else
      match parse_number body with
      | Some (M, e10) => Ok (decimal_to_float neg M e10)
      | None => Raise ValueError
      end
  else Raise ValueError.

(** The default of [sys.int_max_str_digits]. *)
Definition int_max_str_digits : nat := 4300.

(** [int(s)], base ten. *)
Definition int_of_str (s : string) : Result Z :=
  let (neg, body) := take_sign (strip_by is_c_space s) in
  let ds := remove_underscores body in
  if underscores_ok None body && isdigit ds
     && (String.length ds <=? int_max_str_digits)%nat
  then Ok (if neg then - digits_value ds else digits_value ds)
  else Raise ValueError.

(** [d[k]] on a [dict] with [str] keys. *)
Definition getitem {V} (d : gmap string V) (k : string) : Result V :=
  match d !! k with
  | Some v => Ok v
  | None => Raise (KeyError k)
  end.

(** [enumerate(l)] *)
Definition enumerate {A} (l : list A) : list (nat * A) :=
  imap (fun i x => (i, x)) l.

End PyRuntime.

Import PyRuntime.

(** * [main.py] *)

(** What [requests.get] hands back: the fields the module reads. *)
Record Response : Type := { status_code : Z; text : string }.

(** One entry of the list returned by [fetch_historical_prices] (a [dict]
    with exactly these six keys). *)
Record PriceBar : Type := {
  date : string;
  open : float;
  high : float;
  low : float;
  close : float;
  volume : Z
}.

(** [class AIAnalysisResponse(BaseModel)] *)
Record AIAnalysisResponse : Type := {
  symbol : string;
  summary : string;
  outlook : string;
  risk_score : float;
  key_points : list string
}.

(** ** The CSV parser: lines 77-95 of [fetch_historical_prices] *)

(** [{h: i for i, h in enumerate(header)}]: a later column of the same name
    replaces an earlier one. *)
Definition build_idx (header : list string) : gmap string nat :=
  fold_left (fun idx ih => <[ih.2 := ih.1]> idx) (enumerate header) ∅.

(** [parts[idx[name]]] *)
Definition field (idx : gmap string nat) (parts : list string) (name : string)
  : Result string :=
  i ← getitem idx name; index parts i.

(** The [dict] appended for one data row, its entries evaluated in order. *)
Definition parse_row (idx : gmap string nat) (parts : list string)
  : Result PriceBar :=
  d ← field idx parts "Date";
  o ← field idx parts "Open" ≫= float_of_str;
  h ← field idx parts "High" ≫= float_of_str;
  l ← field idx parts "Low" ≫= float_of_str;
  c ← field idx parts "Close" ≫= float_of_str;
  v ← (t ← field idx parts "Volume";
       if isdigit t then field idx parts "Volume" ≫= int_of_str else Ok 0%Z);
  Ok {| date := d; open := o; high := h; low := l; close := c; volume := v |}.

(** The loop over [lines[1:]], with [data] as accumulator. *)
Fixpoint parse_rows (idx : gmap string nat) (lines : list string)
  (data : list PriceBar) : Result (list PriceBar) :=
  match lines with
  | [] => Ok data
  | line :: rest =>
      let parts := split "," line in
      if (length parts <? 6)%nat then parse_rows idx rest data
      else bar ← parse_row idx parts; parse_rows idx rest (data ++ [bar])
  end.

Definition parse_csv (raw : string) : Result (list PriceBar) :=
  let lines := split "010" (strip raw) in
  let header := split "," (hd EmptyString lines) in
  let idx := build_idx header in
  data ← parse_rows idx (tl lines) [];
  match data with
  | [] => Raise (HTTPException 404 "No price data available")
  | _ => Ok (last_n 200 data)
  end.

(** ** The fetcher *)

Definition not_found : PyError :=
  HTTPException 404 "Symbol not found or data unavailable".

(** The test of line 74. *)
Definition unusable (r : Response) : bool :=
  negb (status_code r =? 200)%Z
  || negb (str_truthy (text r))
  || startswith "<!DOCTYPE" (text r).

Definition stooq_url (symbol : string) : string :=
  "https://stooq.com/q/d/l/?s=" ++ lower symbol ++ "&i=d".

Section Fetcher.

(** The network: [requests.get(url, timeout=10)] answers or raises. *)
Variable requests_get : string -> Result Response.

Definition fetch_historical_prices (symbol : string)
  : Result (list PriceBar) :=
  r ← requests_get (stooq_url symbol);
  if unusable r then Raise not_found else parse_csv (text r).

(** [GET /api/stocks/{symbol}/history] *)
Definition get_stock_history (symbol : string)
  : Result (string * list PriceBar) :=
  prices ← fetch_historical_prices symbol;
  Ok (upper symbol, prices).

End Fetcher.

(** ** The heuristic analyzer *)

Local Open Scope float_scope.

(** The local variables of the [else] branch of [generate_ai_insights]. *)
Record Indicators : Type := {
  recent : float;
  ma20 : float;
  ma50 : float;
  change_30 : float;
  volatility : float
}.

(** [sum(closes[-k:]) / min(k, len(closes))] *)
Definition moving_average (k : nat) (closes : list float) : Result float :=
  truediv (sum (last_n k closes)) (float_of_nat (Nat.min k (length closes))).

(** Line 115. The [int] [0] of the [else] branch is only compared with
    floats and formatted with [.1f], where it behaves as the float [0.0] used
    here. *)
Definition change_30_of (closes : list float) (recent : float) : Result float :=
  if (31 <=? length closes)%nat then
    past ← index_from_end closes 30;
    den ← index_from_end closes 30;
    truediv (recent - past) den
  else Ok 0.

(** Line 116, with the same remark on its [else] branch. *)
Definition volatility_of (closes : list float) (ma20 : float) : Result float :=
  if float_truthy ma20 then
    hi ← max_list (last_n 20 closes);
    lo ← min_list (last_n 20 closes);
    truediv (hi - lo) ma20
  else Ok 0.

(** Lines 112-116. *)
Definition indicators (closes : list float) : Result Indicators :=
  recent ← index_from_end closes 1;
  ma20 ← moving_average 20 closes;
  ma50 ← moving_average 50 closes;
  change_30 ← change_30_of closes recent;
  volatility ← volatility_of closes ma20;
  Ok {| recent := recent; ma20 := ma20; ma50 := ma50;
        change_30 := change_30; volatility := volatility |}.

(** Line 118. *)
Definition trend_of (i : Indicators) : string :=
  if ma50 i <? ma20 i then "Uptrend"
  else if ma20 i <? ma50 i then "Downtrend"
  else "Sideways".

(** Line 119. *)
Definition risk_of (i : Indicators) : float :=
  min2 1 (max2 0.05 (volatility i)).

(** Line 120. *)
Definition outlook_of (i : Indicators) : string :=
  if (0.05 <? change_30 i) && String.eqb (trend_of i) "Uptrend" then "Bullish"
  else if (change_30 i <? -0.05) && String.eqb (trend_of i) "Downtrend"
       then "Bearish"
       else "Neutral".

(** Lines 121-127. *)
Definition points_of (i : Indicators) : list string :=
  [ "20-day MA: " ++ format_f 2 (ma20 i);
    "50-day MA: " ++ format_f 2 (ma50 i);
    "30-day change: " ++ format_f 1 (change_30 i * 100) ++ "%";
    "Trend: " ++ trend_of i;
    "Volatility score: " ++ format_f 2 (volatility i) ]%string.

(** Line 128. *)
Definition summary_of (symbol : string) (i : Indicators) : string :=
  (upper symbol ++ " shows a " ++ lower (trend_of i) ++ " with a "
   ++ format_f 1 (change_30 i * 100) ++ "% move over 30 days.")%string.

Definition generate_ai_insights (symbol : string) (prices : list PriceBar)
  : Result AIAnalysisResponse :=
  let closes := map close prices in
  '(summary, outlook, risk, points) ←
    (if (length closes <? 10)%nat then
       Ok ("Not enough data to analyze.", "Neutral", 0.5,
           ["Collect more history for better insights."])
     else
       i ← indicators closes;
       Ok (summary_of symbol i, outlook_of i, risk_of i, points_of i));
  Ok {| symbol := upper symbol;
        summary := summary;
        outlook := outlook;
        risk_score := round risk 2;
        key_points := points |}.

Section Analysis.

Variable requests_get : string -> Result Response.

(** [GET /api/stocks/{symbol}/analysis] *)
Definition analyze_stock (symbol : string) : Result AIAnalysisResponse :=
  prices ← fetch_historical_prices requests_get symbol;
  generate_ai_insights symbol prices.

End Analysis.

(** ** Favorites *)

Section Favorites.

(** The values stored in a document and the two conversions the handler
    needs: a [str] as a stored value, and [str(v)]. *)
Context {Value : Type}.
Variable of_str : string -> Value.
Variable to_str : Value -> string.

(** [database.get_documents(collection, filter, limit)], the document
    store's query. *)
Variable get_documents :
  string -> gmap string Value -> nat -> Result (list (gmap string Value)).

(** [{"user_id": user_id} if user_id else {}] *)
Definition filter_q (user_id : option string) : gmap string Value :=
  match user_id with
  | Some u => if str_truthy u then {[ "user_id" := of_str u ]} else ∅
  | None => ∅
  end.

(** The body of the loop over [docs]. *)
Definition rename_id (d : gmap string Value) : gmap string Value :=
  match d !! "_id" with
  | Some v => <["id" := of_str (to_str v)]> (delete "_id" d)
  | None => d
  end.

(** [GET /api/favorites] *)
Definition list_favorites (user_id : option string)
  : Result (list (gmap string Value)) :=
  docs ← get_documents "stockfavorite" (filter_q user_id) 100;
  Ok (map rename_id docs).

End Favorites.

(** ** [GET /test] *)

(** JSON values of the diagnostic response. *)
Inductive Json : Type :=
  | JNone
  | JStr (s : string)
  | JList (l : list string).

(** A call on the database object returns, or raises an exception [e] of
    which the handler reads [str(e)]. *)
Inductive Outcome (A : Type) : Type :=
  | Returned (a : A)
  | Failed (message : string).
Arguments Returned {A} a.
Arguments Failed {A} message.

(** What the handler observes of [database.db] when it is not [None]:
    [db.name], if the attribute exists, and [db.list_collection_names()]. *)
Record Database : Type := {
  db_name : Outcome (option string);
  list_collection_names : Outcome (list string)
}.

(** The truth value of [os.getenv(name)]. *)
Definition env_set (getenv : string -> option string) (name : string) : bool :=
  match getenv name with
  | Some v => str_truthy v
  | None => false
  end.

(** [f"...{str(e)[:80]}"] *)
Definition error_text (label message : string) : string :=
  label ++ substring 0 80 message.

Definition test_database (db : option Database)
  (getenv : string -> option string) : gmap string Json :=
  let response : gmap string Json :=
    <["backend" := JStr "✅ Running"]>
      (<["database" := JStr "❌ Not Available"]>
         (<["database_url" := JNone]>
            (<["database_name" := JNone]>
               (<["connection_status" := JStr "Not Connected"]>
                  (<["collections" := JList []]> ∅))))) in
  let response :=
    match db with
    | Some d =>
        let response := <["database" := JStr "✅ Available"]> response in
        let response := <["database_url" := JStr "✅ Configured"]> response in
        match db_name d with
        | Returned name =>
            let response :=
              <["database_name" :=
                  JStr (match name with Some n => n | None => "✅ Connected" end)]>
                response in
            let response :=
              <["connection_status" := JStr "Connected"]> response in
            match list_collection_names d with
            | Returned cs =>
                let response := <["collections" := JList (take 10 cs)]> response in
                <["database" := JStr "✅ Connected & Working"]> response
            | Failed m =>
                <["database" :=
                    JStr (error_text "⚠️  Connected but Error: " m)]> response
            end
        | Failed m =>
            <["database" := JStr (error_text "❌ Error: " m)]> response
        end
    | None =>
        <["database" := JStr "⚠️  Available but not initialized"]> response
    end in
  let response :=
    <["database_url" :=
        JStr (if env_set getenv "DATABASE_URL" then "✅ Set" else "❌ Not Set")]>
      response in
  <["database_name" :=
      JStr (if env_set getenv "DATABASE_NAME" then "✅ Set" else "❌ Not Set")]>
    response.


(** * Vocabulary of the properties *)

(** ** Well-formed CSV input *)

(** The header fields and the fields of each data line, as the parser cuts
    them. *)
Definition csv_header (raw : string) : list string :=
  split "," (hd EmptyString (split "010" (strip raw))).

Definition csv_rows (raw : string) : list (list string) :=
  map (split ",") (tl (split "010" (strip raw))).

(** The position of the last column called [name], counting from [i]. *)
Fixpoint column_from (i : nat) (header : list string) (name : string)
  : option nat :=
  match header with
  | [] => None
  | h :: t =>
      match column_from (S i) t name with
      | Some j => Some j
      | None => if String.eqb h name then Some i else None
      end
  end.

Definition column : list string -> string -> option nat := column_from 0.

(** The field of a row under the column called [name]. *)
Definition cell (header parts : list string) (name : string) : option string :=
  i ← column header name; parts !! i.








(** ** The lines the parser reads *)

(** The data lines the loop does not skip: those with at least 6 fields. *)
Definition long_line (line : string) : bool :=
  negb (length (split "," line) <? 6)%nat.

Definition data_lines (raw : string) : list string :=
  tl (split "010" (strip raw)).

(** ** What the parser can raise *)

Definition lookup_or_value_error (e : PyError) : Prop :=
  match e with
  | KeyError _ | IndexError | ValueError => True
  | _ => False
  end.

Definition no_data : PyError := HTTPException 404 "No price data available".

(** Success statuses: 200..299. *)
Definition is_2xx (c : Z) : bool := (200 <=? c)%Z && (c <=? 299)%Z.

(** A network that answers every request with [r]. *)
Definition respond (r : Response) : string -> Result Response := fun _ => Ok r.

(** ** Inputs used in the examples *)

Definition flat_bar (c : float) : PriceBar :=
  {| date := "2024-01-02"; open := c; high := c; low := c; close := c;
     volume := 0 |}.

Definition bars_of (closes : list float) : list PriceBar := map flat_bar closes.

Definition nine_flat : list float := repeat 100%float 9.
Definition zero_flat : list float := repeat 0%float 12.
Definition step_up_25 : list float := repeat 50%float 5 ++ repeat 100%float 20.
Definition rising_31 : list float :=
  [90; 100]%float ++ repeat 50%float 9 ++ repeat 110%float 20.
Definition lookback_31 : list float :=
  [100; 110]%float ++ repeat 50%float 9 ++ repeat 110%float 20.
Definition zero_close_31 : list float := [10; 0]%float ++ repeat 10%float 29.

Definition sample_csv : string :=
  "Date,Open,High,Low,Close,Volume
2024-01-02,187.15,188.44,183.885,185.64,82488674
2024-01-03,184.22,185.88,183.43,184.25,58414460
2024-01-04,182.15,183.0872,180.88,181.91,N/D
".


Definition bad_price_csv : string :=
  "Date,Open,High,Low,Close,Volume
2024-01-02,187.15,188.44,183.885,185.64,82488674
2024-01-03,184.22,185.88,183.43
2024-01-04,N/D,183.0872,180.88,181.91,1000".

Definition short_row_csv : string :=
  "Date,Open,High,Low,Close,Volume
2024-01-02,187.15,188.44,183.885,185.64,82488674
2024-01-03,184.22,185.88,183.43".

Definition proxied_response : Response :=
  {| status_code := 203; text := sample_csv |}.

Definition no_date_csv : string :=
  "Day,Open,High,Low,Close,Volume
2024-01-02,187.15,188.44,183.885,185.64,82488674".

Definition step_up_12 : list float := repeat 50%float 6 ++ repeat 100%float 6.
Definition long_60 : list float := repeat 80%float 29 ++ rising_31.

(** A stored favorite, with values written as text. *)
Definition stored_favorite : gmap string string :=
  <["_id" := "665f1c2ab7e4d90012345678"]>
    (<["symbol" := "AAPL"]> (<["user_id" := "u1"]> ∅)).

(** * Properties *)

(** ** Facts on binary64 comparisons *)

Section FloatOrder.
Local Open Scope float_scope.

Lemma compare_cont_opp p q :
  PosDef.Pos.compare_cont Eq q p = CompOpp (PosDef.Pos.compare_cont Eq p q).
Proof. symmetry. exact (Pos.compare_cont_antisym p q Eq). Qed.

Lemma SFcompare_antisym x y :
  SFcompare y x = option_map CompOpp (SFcompare x y).
Proof.
  destruct x as [sx|sx| |sx mx ex], y as [sy|sy| |sy my ey]; simpl;
    try reflexivity;
    try (destruct sx; reflexivity);
    try (destruct sy; reflexivity);
    try (destruct sx, sy; reflexivity).
  destruct sx, sy; simpl; try reflexivity;
    rewrite (Z.compare_antisym ex ey);
    destruct (ex ?= ey)%Z; simpl; try reflexivity;
    now rewrite (compare_cont_opp mx my).
Qed.
Lemma ltb_asym a b : (a <? b) = true -> (b <? a) = false.
Proof.
  rewrite !ltb_spec. unfold SFltb.
  rewrite (SFcompare_antisym (Prim2SF a) (Prim2SF b)).
  destruct (SFcompare (Prim2SF a) (Prim2SF b)) as [[]|]; simpl; congruence.
Qed.

Lemma SF_0_05 : Prim2SF 0.05 = S754_finite false 7205759403792794 (-57).
Proof. vm_compute. reflexivity. Qed.

Lemma SF_neg_0_05 : Prim2SF (-0.05) = S754_finite true 7205759403792794 (-57).
Proof. vm_compute. reflexivity. Qed.

Lemma SF_1 : Prim2SF 1 = S754_finite false 4503599627370496 (-52).
Proof. vm_compute. reflexivity. Qed.

(** What lies strictly above a positive finite number. *)
Lemma SFltb_above m0 e0 x :
  SFltb (S754_finite false m0 e0) x = true ->
  x = S754_infinity false \/
  exists m e, x = S754_finite false m e /\
              (e0 < e \/ (e0 = e /\ (m0 < m)%positive))%Z.
Proof.
  unfold SFltb. destruct x as [s|s| |s m e]; simpl; try discriminate.
  - destruct s; [discriminate | now left].
  - destruct s; [discriminate |]. intros H. right. exists m, e. split; [reflexivity |].
    destruct (Z.compare_spec e0 e) as [Heq|Hlt|Hgt]; try discriminate.
    + right. split; [assumption |].
      change (PosDef.Pos.compare_cont Eq m0 m) with (Pos.compare m0 m) in H.
      destruct (Pos.compare_spec m0 m); try discriminate. assumption.
    + now left.
Qed.

(** What lies strictly below a positive finite number, when positive. *)
Lemma SFltb_below m1 e1 m e :
  SFltb (S754_finite false m e) (S754_finite false m1 e1) = true ->
  (e < e1 \/ (e = e1 /\ (m < m1)%positive))%Z.
Proof.
  unfold SFltb. simpl.
  destruct (Z.compare_spec e e1) as [Heq|Hlt|Hgt]; try discriminate.
  - change (PosDef.Pos.compare_cont Eq m m1) with (Pos.compare m m1).
    destruct (Pos.compare_spec m m1); try discriminate. now right.
  - now left.
Qed.

(** A change above [0.05] is not below [-0.05]. *)
Lemma above_not_below c : (0.05 <? c) = true -> (c <? -0.05) = false.
Proof.
  rewrite !ltb_spec, SF_0_05, SF_neg_0_05. intros H.
  apply SFltb_above in H as [-> | (m & e & -> & _)]; reflexivity.
Qed.

End FloatOrder.

(** ** [round(risk, 2)] stays within the clamp *)

Section RoundClamp.

Local Open Scope Z_scope.

Lemma digits2_pos_bounds m :
  2 ^ (Z.pos (digits2_pos m) - 1) <= Z.pos m < 2 ^ Z.pos (digits2_pos m).
Proof.
  induction m as [p IH|p IH|]; simpl digits2_pos.
  - rewrite Pos2Z.inj_succ.
    replace (Z.succ (Z.pos (digits2_pos p)) - 1) with (Z.pos (digits2_pos p)) by lia.
    rewrite Z.pow_succ_r by lia.
    replace (Z.pos (digits2_pos p)) with (Z.succ (Z.pos (digits2_pos p) - 1)) at 1 by lia.
    rewrite Z.pow_succ_r by lia. lia.
  - rewrite Pos2Z.inj_succ.
    replace (Z.succ (Z.pos (digits2_pos p)) - 1) with (Z.pos (digits2_pos p)) by lia.
    rewrite Z.pow_succ_r by lia.
    replace (Z.pos (digits2_pos p)) with (Z.succ (Z.pos (digits2_pos p) - 1)) at 1 by lia.
    rewrite Z.pow_succ_r by lia. lia.
  - simpl. lia.
Qed.

(** A valid binary64 number above the subnormal range has a 53-bit
    mantissa. *)
Lemma valid_normal s m e :
  valid_binary (S754_finite s m e) = true -> -1074 < e ->
  2 ^ 52 <= Z.pos m < 2 ^ 53.
Proof.
  unfold FloatAxioms.valid_binary, SpecFloat.valid_binary, bounded, canonical_mantissa, fexp.
  intros H He. apply andb_prop in H as [H _]. apply Z.eqb_eq in H.
  unfold SpecFloat.emin, prec, emax in H.
  assert (Hd : Z.pos (digits2_pos m) = 53) by lia.
  pose proof (digits2_pos_bounds m) as Hb. rewrite Hd in Hb. exact Hb.
Qed.


(** [div_half_even] is the quotient or its successor. *)
Lemma div_half_even_cases num den :
  div_half_even num den = num / den \/ div_half_even num den = num / den + 1.
Proof.
  unfold div_half_even.
  destruct (2 * (num mod den) ?= den); [destruct (Z.even (num / den)) | |]; auto.
Qed.

Lemma scaled_round_bounds m e :
  2 ^ 52 <= Z.pos m < 2 ^ 53 ->
  -57 < e \/ (-57 = e /\ (7205759403792794 < m)%positive) ->
  e < -52 ->
  5 <= scaled_round 2 m e <= 100.
Proof.
  intros Hm Hlo Hhi.
  assert (He : e = -57 \/ e = -56 \/ e = -55 \/ e = -54 \/ e = -53) by lia.
  unfold scaled_round.
  destruct (Z.leb_spec 0 e) as [?|_]; [lia |].
  change (10 ^ Z.of_nat 2) with 100.
  assert (Hq : 5 <= Z.pos m * 100 / 2 ^ (- e) <= 99).
  { destruct He as [-> | [-> | [-> | [-> | ->]]]];
      match goal with
      | |- context [2 ^ ?k] =>
          let v := eval vm_compute in (2 ^ k) in change (2 ^ k) with v
      end;
      (split; [apply Z.div_le_lower_bound | apply Z.lt_succ_r, Z.div_lt_upper_bound]);
      lia. }
  destruct (div_half_even_cases (Z.pos m * 100) (2 ^ (- e))) as [-> | ->]; lia.
Qed.

Local Open Scope float_scope.

Lemma round_grid k :
  (5 <= k <= 100)%Z ->
  (0.05 <=? decimal_to_float false k (-2)) = true
  /\ (decimal_to_float false k (-2) <=? 1) = true.
Proof.
  intros Hk.
  assert (Hall :
    forallb (fun j => (0.05 <=? decimal_to_float false (Z.of_nat j) (-2))
                      && (decimal_to_float false (Z.of_nat j) (-2) <=? 1))
            (seq 5 96) = true) by (vm_compute; reflexivity).
  rewrite forallb_forall in Hall.
  specialize (Hall (Z.to_nat k)).
  rewrite Z2Nat.id in Hall by lia.
  apply andb_prop, Hall, in_seq. lia.
Qed.

(** Rounding a value strictly between [0.05] and [1] to two decimals. *)
Lemma round_between v :
  (0.05 <? v) = true -> (v <? 1) = true ->
  (0.05 <=? round v 2) = true /\ (round v 2 <=? 1) = true.
Proof.
  intros Hlo Hhi. unfold round.
  pose proof (Prim2SF_valid v) as Hv.
  rewrite ltb_spec, SF_0_05 in Hlo. rewrite ltb_spec, SF_1 in Hhi.
  apply SFltb_above in Hlo as [E | (m & e & E & Hlo)]; rewrite E in *.
  - discriminate Hhi.
  - apply SFltb_below in Hhi.
    assert (He : (-1074 < e)%Z) by (clear - Hlo; lia).
    pose proof (valid_normal false m e Hv He) as Hm.
    apply round_grid, scaled_round_bounds; try assumption.
    clear - Hhi Hm. destruct Hhi as [H | [_ H]]; [exact H | exfalso].
    change (2 ^ 52)%Z with 4503599627370496%Z in Hm.
    apply Pos2Z.pos_lt_pos in H. lia.
Qed.

(** The returned score: the clamp of line 119, then the rounding of
    line 134. *)
Lemma round_clamp_bounds v :
  (0.05 <=? round (min2 1 (max2 0.05 v)) 2) = true
  /\ (round (min2 1 (max2 0.05 v)) 2 <=? 1) = true.
Proof.
  unfold max2, min2.
  destruct (0.05 <? v) eqn:Hlo.
  - destruct (v <? 1) eqn:Hhi.
    + apply round_between; assumption.
    + vm_compute. split; reflexivity.
  - vm_compute. split; reflexivity.
Qed.

End RoundClamp.

(** ** The analyzer, step by step *)

Section AnalyzerFacts.

Local Open Scope float_scope.

Lemma index_from_end_ok {A} (l : list A) (k : nat) :
  (1 <= k <= length l)%nat ->
  exists x, l !! (length l - k)%nat = Some x /\ index_from_end l k = Ok x.
Proof.
  intros Hk. unfold index_from_end.
  destruct (Nat.leb_spec k (length l)) as [_|?]; [| lia].
  destruct (lookup_lt_is_Some_2 l (length l - k)%nat) as [x Hx]; [lia |].
  exists x. now rewrite Hx.
Qed.

Lemma last_n_nonempty {A} (l : list A) (k : nat) :
  (1 <= k)%nat -> l <> [] -> last_n k l <> [].
Proof.
  intros Hk Hl E. unfold last_n in E.
  apply (f_equal length) in E. rewrite length_drop in E. simpl in E.
  destruct l; [congruence | simpl in E; lia].
Qed.

(** The divisors [min(20, n)] and [min(50, n)] are never zero. *)
Lemma count_nonzero (j : nat) :
  (1 <= j <= 50)%nat -> (float_of_nat j =? 0) = false.
Proof.
  intros Hj.
  assert (Hall : forallb (fun i => negb (float_of_nat i =? 0)) (seq 1 50) = true)
    by (vm_compute; reflexivity).
  rewrite forallb_forall in Hall.
  apply negb_true_iff, Hall, in_seq. lia.
Qed.

Lemma moving_average_ok (k : nat) (closes : list float) :
  (1 <= k <= 50)%nat -> (1 <= length closes)%nat ->
  moving_average k closes
  = Ok (sum (last_n k closes) / float_of_nat (Nat.min k (length closes))).
Proof.
  intros Hk Hn. unfold moving_average, truediv.
  rewrite count_nonzero; [reflexivity | lia].
Qed.

(** Line 116 never raises: the division is guarded by the truth value of
    [ma20]. *)
Lemma volatility_of_ok (closes : list float) (m : float) :
  closes <> [] ->
  exists v, volatility_of closes m = Ok v
            /\ ((m =? 0) = true -> v = 0).
Proof.
  intros Hne. unfold volatility_of, float_truthy.
  destruct (m =? 0) eqn:Hm; simpl.
  - exists 0. auto.
  - pose proof (last_n_nonempty closes 20 ltac:(lia) Hne) as Hl.
    destruct (last_n 20 closes) as [|x xs]; [congruence |].
    simpl. unfold truediv. rewrite Hm. eexists. split; [reflexivity | discriminate].
Qed.

(** Line 115 with fewer than 31 closes. *)
Lemma change_30_of_short (closes : list float) (r : float) :
  (length closes <= 30)%nat -> change_30_of closes r = Ok 0.
Proof.
  intros Hn. unfold change_30_of.
  destruct (Nat.leb_spec 31 (length closes)); [lia | reflexivity].
Qed.

(** Line 115 with at least 31 closes: the reference close is
    [closes[n - 30]], and it is the divisor. *)
Lemma change_30_of_long (closes : list float) (r : float) :
  (31 <= length closes)%nat ->
  exists past, closes !! (length closes - 30)%nat = Some past
               /\ change_30_of closes r = truediv (r - past) past.
Proof.
  intros Hn. unfold change_30_of.
  destruct (Nat.leb_spec 31 (length closes)); [| lia].
  destruct (index_from_end_ok closes 30 ltac:(lia)) as (past & Hp & ->).
  exists past. split; [assumption | reflexivity].
Qed.

(** With at least 10 closes everything but line 115 is defined. *)
Lemma indicators_unfold (closes : list float) :
  (10 <= length closes)%nat ->
  exists r m20 m50 v,
    closes !! (length closes - 1)%nat = Some r
    /\ moving_average 20 closes = Ok m20
    /\ moving_average 50 closes = Ok m50
    /\ volatility_of closes m20 = Ok v
    /\ ((m20 =? 0) = true -> v = 0)
    /\ indicators closes
       = (c ← change_30_of closes r;
          Ok {| recent := r; ma20 := m20; ma50 := m50;
                change_30 := c; volatility := v |}).
Proof.
  intros Hn.
  destruct (index_from_end_ok closes 1 ltac:(lia)) as (r & Hr & Er).
  assert (Hne : closes <> []) by (destruct closes; [simpl in Hn; lia | discriminate]).
  destruct (volatility_of_ok closes
              (sum (last_n 20 closes) / float_of_nat (Nat.min 20 (length closes))) Hne)
    as (v & Ev & Hv).
  eexists r, _, _, v. repeat split.
  - exact Hr.
  - apply moving_average_ok; lia.
  - apply moving_average_ok; lia.
  - exact Ev.
  - exact Hv.
  - unfold indicators. rewrite Er.
    rewrite !moving_average_ok by lia.
    unfold mbind, result_bind.
    destruct (change_30_of closes r); [| reflexivity].
    rewrite Ev. reflexivity.
Qed.


(** Lines 130-136 on the [else] branch. *)
Lemma generate_sufficient (sym : string) (prices : list PriceBar) :
  (10 <= length (map close prices))%nat ->
  generate_ai_insights sym prices
  = (i ← indicators (map close prices);
     Ok {| symbol := upper sym;
           summary := summary_of sym i;
           outlook := outlook_of i;
           risk_score := round (risk_of i) 2;
           key_points := points_of i |}).
Proof.
  intros Hn. unfold generate_ai_insights.
  destruct (Nat.ltb_spec (length (map close prices)) 10) as [?|_]; [lia |].
  unfold mbind, result_bind.
  destruct (indicators (map close prices)); reflexivity.
Qed.

Lemma trend_uptrend (i : Indicators) :
  String.eqb (trend_of i) "Uptrend" = (ma50 i <? ma20 i).
Proof.
  unfold trend_of. destruct (ma50 i <? ma20 i); [reflexivity |].
  destruct (ma20 i <? ma50 i); reflexivity.
Qed.

Lemma trend_downtrend (i : Indicators) :
  String.eqb (trend_of i) "Downtrend" = (ma20 i <? ma50 i).
Proof.
  unfold trend_of. destruct (ma50 i <? ma20 i) eqn:Hup.
  - rewrite (ltb_asym _ _ Hup). reflexivity.
  - destruct (ma20 i <? ma50 i); reflexivity.
Qed.

(** Line 120 as a decision table. *)
Lemma outlook_of_spec (i : Indicators) :
  (outlook_of i = "Bullish"
   <-> (0.05 <? change_30 i) = true /\ (ma50 i <? ma20 i) = true)
  /\ (outlook_of i = "Bearish"
      <-> (change_30 i <? -0.05) = true /\ (ma20 i <? ma50 i) = true)
  /\ (outlook_of i = "Neutral"
      <-> ~ ((0.05 <? change_30 i) = true /\ (ma50 i <? ma20 i) = true)
          /\ ~ ((change_30 i <? -0.05) = true /\ (ma20 i <? ma50 i) = true)).
Proof.
  unfold outlook_of. rewrite trend_uptrend, trend_downtrend.
  pose proof (above_not_below (change_30 i)) as Hx.
  destruct (0.05 <? change_30 i), (ma50 i <? ma20 i),
           (change_30 i <? -0.05), (ma20 i <? ma50 i); simpl;
    try (specialize (Hx eq_refl); discriminate Hx);
    repeat split; intros; try discriminate; try tauto;
    try (intuition discriminate).
Qed.

End AnalyzerFacts.

(** ** The analyzer's results *)

Section AnalyzerClaims.

Local Open Scope float_scope.

(** C6. With fewer than 10 closes the analyzer returns the fixed
    insufficient-data result: fixed summary, outlook Neutral, risk score
    exactly 0.5, and the single key point asking for more history. *)
Theorem insufficient_data_result (sym : string) (prices : list PriceBar) :
  (length (map close prices) < 10)%nat ->
  generate_ai_insights sym prices
  = Ok {| symbol := upper sym;
          summary := "Not enough data to analyze.";
          outlook := "Neutral";
          risk_score := 0.5;
          key_points := ["Collect more history for better insights."] |}.
Proof.
  intros Hn. unfold generate_ai_insights.
  destruct (Nat.ltb_spec (length (map close prices)) 10) as [_|?]; [| lia].
  reflexivity.
Qed.

Lemma insufficient_data_witness :
  (length (map close (bars_of nine_flat)) < 10)%nat
  /\ generate_ai_insights "aapl" (bars_of nine_flat)
     = Ok {| symbol := "AAPL";
             summary := "Not enough data to analyze.";
             outlook := "Neutral";
             risk_score := 0.5;
             key_points := ["Collect more history for better insights."] |}.
Proof.
  split.
  - vm_compute. lia.
  - apply (insufficient_data_result "aapl" (bars_of nine_flat)).
    vm_compute. lia.
Defined.

(** When the analyzer returns on at least 10 closes, the indicators were
    computed and the response is built from them. *)
Lemma generate_ok_inv (sym : string) (prices : list PriceBar)
  (r : AIAnalysisResponse) :
  (10 <= length (map close prices))%nat ->
  generate_ai_insights sym prices = Ok r ->
  exists i, indicators (map close prices) = Ok i
            /\ outlook r = outlook_of i
            /\ risk_score r = round (risk_of i) 2.
Proof.
  intros Hn Hr. rewrite generate_sufficient in Hr by assumption.
  destruct (indicators (map close prices)) as [i|e]; [| discriminate Hr].
  exists i. injection Hr as <-. auto.
Qed.

(** C7. On at least 10 closes the outlook is Bullish exactly when
    [change_30 > 0.05] and [ma20 > ma50], Bearish exactly when
    [change_30 < -0.05] and [ma20 < ma50], and Neutral otherwise. *)
Theorem outlook_rule (sym : string) (prices : list PriceBar)
  (r : AIAnalysisResponse) :
  (10 <= length (map close prices))%nat ->
  generate_ai_insights sym prices = Ok r ->
  exists i, indicators (map close prices) = Ok i
    /\ (outlook r = "Bullish"
        <-> (0.05 <? change_30 i) = true /\ (ma50 i <? ma20 i) = true)
    /\ (outlook r = "Bearish"
        <-> (change_30 i <? -0.05) = true /\ (ma20 i <? ma50 i) = true)
    /\ (outlook r = "Neutral"
        <-> ~ ((0.05 <? change_30 i) = true /\ (ma50 i <? ma20 i) = true)
            /\ ~ ((change_30 i <? -0.05) = true /\ (ma20 i <? ma50 i) = true)).
Proof.
  intros Hn Hr.
  destruct (generate_ok_inv sym prices r Hn Hr) as (i & Hi & -> & _).
  exists i. split; [assumption | apply outlook_of_spec].
Qed.

(** C5. On at least 10 closes the returned risk score lies in
    [[0.05, 1.0]]; when [ma20] is zero the volatility is 0 and the score is
    0.05. *)
Theorem risk_score_range (sym : string) (prices : list PriceBar)
  (r : AIAnalysisResponse) :
  (10 <= length (map close prices))%nat ->
  generate_ai_insights sym prices = Ok r ->
  (0.05 <=? risk_score r) = true
  /\ (risk_score r <=? 1) = true
  /\ forall i, indicators (map close prices) = Ok i ->
               (ma20 i =? 0) = true ->
               volatility i = 0 /\ risk_score r = 0.05.
Proof.
  intros Hn Hr.
  destruct (generate_ok_inv sym prices r Hn Hr) as (i & Hi & _ & ->).
  destruct (round_clamp_bounds (volatility i)) as [Hlo Hhi].
  split; [exact Hlo | split; [exact Hhi |]].
  intros j Hj Hz. rewrite Hi in Hj. injection Hj as <-.
  destruct (indicators_unfold _ Hn)
    as (r0 & m20 & m50 & v & _ & _ & _ & _ & Hv & E).
  rewrite E in Hi. unfold mbind, result_bind in Hi.
  destruct (change_30_of (map close prices) r0); [| discriminate].
  injection Hi as <-. simpl in Hz |- *. unfold risk_of. simpl.
  rewrite (Hv Hz). split; reflexivity.
Qed.

Lemma outlook_rule_witness :
  (10 <= length (map close (bars_of rising_31)))%nat
  /\ exists r, generate_ai_insights "aapl" (bars_of rising_31) = Ok r
       /\ outlook r = "Bullish"
       /\ exists i, indicators (map close (bars_of rising_31)) = Ok i
            /\ (outlook r = "Bullish"
                <-> (0.05 <? change_30 i) = true /\ (ma50 i <? ma20 i) = true)
            /\ (outlook r = "Bearish"
                <-> (change_30 i <? -0.05) = true /\ (ma20 i <? ma50 i) = true)
            /\ (outlook r = "Neutral"
                <-> ~ ((0.05 <? change_30 i) = true /\ (ma50 i <? ma20 i) = true)
                    /\ ~ ((change_30 i <? -0.05) = true
                          /\ (ma20 i <? ma50 i) = true)).
Proof.
  assert (Hn : (10 <= length (map close (bars_of rising_31)))%nat)
    by (vm_compute; lia).
  split; [exact Hn |].
  eexists. split; [vm_compute; reflexivity |].
  split; [reflexivity |].
  apply (outlook_rule "aapl" (bars_of rising_31)); [exact Hn |].
  vm_compute. reflexivity.
Defined.

Lemma risk_score_range_witness :
  (10 <= length (map close (bars_of zero_flat)))%nat
  /\ exists r, generate_ai_insights "aapl" (bars_of zero_flat) = Ok r
       /\ (0.05 <=? risk_score r) = true
       /\ (risk_score r <=? 1) = true
       /\ forall i, indicators (map close (bars_of zero_flat)) = Ok i ->
                    (ma20 i =? 0) = true ->
                    volatility i = 0 /\ risk_score r = 0.05.
Proof.
  assert (Hn : (10 <= length (map close (bars_of zero_flat)))%nat)
    by (vm_compute; lia).
  split; [exact Hn |].
  eexists. split; [vm_compute; reflexivity |].
  apply (risk_score_range "aapl" (bars_of zero_flat)); [exact Hn |].
  vm_compute. reflexivity.
Defined.

(** C8. With 10 to 30 closes, [change_30] is 0 and the outlook is Neutral,
    whatever the trend and the closes. *)
Theorem short_history_neutral (sym : string) (prices : list PriceBar) :
  (10 <= length (map close prices) <= 30)%nat ->
  exists i r, indicators (map close prices) = Ok i
              /\ change_30 i = 0
              /\ generate_ai_insights sym prices = Ok r
              /\ outlook r = "Neutral".
Proof.
  intros [Hlo Hhi].
  destruct (indicators_unfold _ Hlo)
    as (r0 & m20 & m50 & v & _ & _ & _ & _ & _ & E).
  rewrite change_30_of_short in E by assumption.
  eexists _, _. split; [exact E |]. split; [reflexivity |].
  rewrite generate_sufficient, E by assumption.
  split; reflexivity.
Qed.

Lemma short_history_neutral_witness :
  (10 <= length (map close (bars_of step_up_25)) <= 30)%nat
  /\ exists i r, indicators (map close (bars_of step_up_25)) = Ok i
                 /\ change_30 i = 0
                 /\ generate_ai_insights "aapl" (bars_of step_up_25) = Ok r
                 /\ outlook r = "Neutral".
Proof.
  assert (Hn : (10 <= length (map close (bars_of step_up_25)) <= 30)%nat)
    by (vm_compute; lia).
  split; [exact Hn |].
  exact (short_history_neutral "aapl" (bars_of step_up_25) Hn).
Defined.

(** The close that [change_30] is measured against: with [n >= 31] closes
    it is [closes[n - 30]], 29 bars before the most recent close
    [closes[n - 1]]. *)
Lemma change_30_reference (closes : list float) (i : Indicators) :
  (31 <= length closes)%nat ->
  indicators closes = Ok i ->
  exists r past,
    closes !! (length closes - 1)%nat = Some r
    /\ closes !! (length closes - 30)%nat = Some past
    /\ change_30 i = (r - past) / past.
Proof.
  intros Hn Hi.
  destruct (indicators_unfold closes ltac:(lia))
    as (r0 & m20 & m50 & v & Hr & _ & _ & _ & _ & E).
  destruct (change_30_of_long closes r0 Hn) as (past & Hp & Ec).
  rewrite E, Ec in Hi. unfold mbind, result_bind, truediv in Hi.
  destruct (past =? 0); [discriminate |].
  injection Hi as <-. exists r0, past. auto.
Qed.

(** C1. A sequence of 31 closes with [closes[0] = 100] and most recent
    close 110: the analyzer does not compute [change_30 = 0.10] from
    [closes[0]] (that would be [(110 - 100) / 100]); it measures against
    [closes[1]], here 110, finds 0, and returns Neutral although the trend is
    Uptrend. *)
Theorem change_30_lookback_mismatch :
  length lookback_31 = 31%nat
  /\ lookback_31 !! 0%nat = Some 100
  /\ index_from_end lookback_31 1 = Ok 110
  /\ exists i r,
       indicators lookback_31 = Ok i
       /\ generate_ai_insights "aapl" (bars_of lookback_31) = Ok r
       /\ change_30 i = 0
       /\ (110 - 100) / 100 = 0.1
       /\ trend_of i = "Uptrend"
       /\ outlook r = "Neutral".
Proof.
  repeat split.
  eexists _, _. split; [vm_compute; reflexivity |].
  split; [vm_compute; reflexivity |].
  repeat split.
Qed.

(** The only failure of the analyzer: a zero reference close. *)
Lemma zero_reference_raises (sym : string) (prices : list PriceBar)
  (past : float) :
  (31 <= length (map close prices))%nat ->
  map close prices !! (length (map close prices) - 30)%nat = Some past ->
  (past =? 0) = true ->
  generate_ai_insights sym prices = Raise ZeroDivisionError.
Proof.
  intros Hn Hp Hz.
  rewrite generate_sufficient by lia.
  destruct (indicators_unfold (map close prices) ltac:(lia))
    as (r0 & m20 & m50 & v & _ & _ & _ & _ & _ & E).
  destruct (change_30_of_long (map close prices) r0 Hn) as (past' & Hp' & Ec).
  rewrite Hp in Hp'. injection Hp' as <-.
  rewrite E, Ec. unfold truediv. rewrite Hz. reflexivity.
Qed.

Lemma nonzero_reference_returns (sym : string) (prices : list PriceBar) :
  ((length (map close prices) <= 30)%nat
   \/ exists past,
        map close prices !! (length (map close prices) - 30)%nat = Some past
        /\ (past =? 0) = false) ->
  exists r, generate_ai_insights sym prices = Ok r.
Proof.
  intros H.
  destruct (Nat.lt_ge_cases (length (map close prices)) 10) as [Hs|Hn].
  { unfold generate_ai_insights.
    destruct (Nat.ltb_spec (length (map close prices)) 10) as [_|?]; [| lia].
    eexists. reflexivity. }
  rewrite generate_sufficient by assumption.
  destruct (indicators_unfold (map close prices) Hn)
    as (r0 & m20 & m50 & v & _ & _ & _ & _ & _ & E).
  rewrite E.
  destruct (Nat.le_gt_cases (length (map close prices)) 30) as [Hshort|Hlong].
  - rewrite change_30_of_short by assumption. eexists. reflexivity.
  - destruct H as [? | (past & Hp & Hz)]; [lia |].
    destruct (change_30_of_long (map close prices) r0 ltac:(lia))
      as (past' & Hp' & Ec).
    rewrite Hp in Hp'. injection Hp' as <-.
    rewrite Ec. unfold truediv. rewrite Hz. eexists. reflexivity.
Qed.

(** C2. The analyzer is not total: 31 bars whose close at index 1 is 0
    make line 115 divide by zero, and the error leaves the function. *)
Theorem zero_close_raises :
  length zero_close_31 = 31%nat
  /\ generate_ai_insights "aapl" (bars_of zero_close_31)
     = Raise ZeroDivisionError.
Proof. split; vm_compute; reflexivity. Qed.

End AnalyzerClaims.

(** ** The parser on well-formed input *)

Section ParserFacts.

Lemma build_idx_from (i : nat) (header : list string)
  (m : gmap string nat) (name : string) :
  fold_left (fun idx ih => <[ih.2 := ih.1]> idx)
    (imap (fun j x => ((i + j)%nat, x)) header) m !! name
  = match column_from i header name with
    | Some j => Some j
    | None => m !! name
    end.
Proof.
  revert i m. induction header as [|h t IH]; intros i m; [reflexivity |].
  rewrite imap_cons. simpl fold_left.
  erewrite (imap_ext _ (fun j x => ((S i + j)%nat, x))); last first.
  { intros j x _. simpl. f_equal. lia. }
  rewrite IH. simpl column_from.
  destruct (column_from (S i) t name); [reflexivity |].
  replace (i + 0)%nat with i by lia.
  destruct (String.eqb_spec h name) as [->|Hne].
  - apply lookup_insert_eq.
  - now apply lookup_insert_ne.
Qed.

(** The [dict] built from the header maps a name to its last column. *)
Lemma build_idx_lookup (header : list string) (name : string) :
  build_idx header !! name = column header name.
Proof.
  unfold build_idx, enumerate, column.
  rewrite (build_idx_from 0 header ∅ name).
  destruct (column_from 0 header name); [reflexivity | apply lookup_empty].
Qed.

















Lemma last_n_map {A B} (f : A -> B) (k : nat) (l : list A) :
  map f (last_n k l) = last_n k (map f l).
Proof. unfold last_n. now rewrite length_map, skipn_map. Qed.

Lemma last_n_length {A} (k : nat) (l : list A) :
  length (last_n k l) = Nat.min k (length l).
Proof. unfold last_n. rewrite length_drop. lia. Qed.

End ParserFacts.

Section ParserClaims.




End ParserClaims.

(** ** Errors of the parser and the fetch step *)

Section ParserErrors.

Lemma field_error idx parts name e :
  field idx parts name = Raise e -> lookup_or_value_error e.
Proof.
  unfold field, getitem, index, mbind, result_bind.
  destruct (idx !! name) as [i|]; [| intros [= <-]; exact I].
  destruct (parts !! i); [discriminate | intros [= <-]; exact I].
Qed.

Lemma float_of_str_error s e :
  float_of_str s = Raise e -> lookup_or_value_error e.
Proof.
  unfold float_of_str.
  destruct (underscores_ok None s); [| intros [= <-]; exact I].
  destruct (take_sign _) as [neg body].
  destruct (_ || _); [discriminate |].
  destruct (String.eqb _ _); [discriminate |].
  destruct (parse_number body) as [[M e10]|]; [discriminate |].
  intros [= <-]; exact I.
Qed.

Lemma int_of_str_error s e :
  int_of_str s = Raise e -> lookup_or_value_error e.
Proof.
  unfold int_of_str. destruct (take_sign _) as [neg body].
  destruct (_ && _); [discriminate | intros [= <-]; exact I].
Qed.

Lemma bind_error {A B} (c : Result A) (k : A -> Result B) e :
  (c ≫= k) = Raise e ->
  c = Raise e \/ exists a, c = Ok a /\ k a = Raise e.
Proof.
  unfold mbind, result_bind. destruct c as [a|e']; [eauto |].
  intros [= <-]. now left.
Qed.

Lemma parse_row_error idx parts e :
  parse_row idx parts = Raise e -> lookup_or_value_error e.
Proof.
  unfold parse_row. intros H.
  repeat match type of H with
         | (_ ≫= _) = Raise _ =>
             apply bind_error in H as [H | (? & _ & H)]
         end;
    try (eapply field_error; eassumption);
    try (eapply float_of_str_error; eassumption);
    try (eapply int_of_str_error; eassumption);
    try discriminate H.
  destruct (isdigit _); [| discriminate H].
  apply bind_error in H as [H | (? & _ & H)];
    [eapply field_error | eapply int_of_str_error]; eassumption.
Qed.

Lemma parse_rows_error idx lines data e :
  parse_rows idx lines data = Raise e -> lookup_or_value_error e.
Proof.
  revert data. induction lines as [|line rest IH]; intros data; simpl.
  - discriminate.
  - destruct (_ <? _)%nat; [apply IH |].
    intros H. apply bind_error in H as [H | (bar & _ & H)].
    + eapply parse_row_error; eassumption.
    + eapply IH; eassumption.
Qed.

(** The parser raises a lookup or conversion error, or "no data". *)
Lemma parse_csv_error raw e :
  parse_csv raw = Raise e -> lookup_or_value_error e \/ e = no_data.
Proof.
  unfold parse_csv. intros H.
  apply bind_error in H as [H | (data & _ & H)].
  - left. eapply parse_rows_error; eassumption.
  - destruct data; [injection H as <-; now right | discriminate H].
Qed.

Lemma parse_csv_not_not_found raw : parse_csv raw <> Raise not_found.
Proof.
  intros H. apply parse_csv_error in H as [H | H]; [exact H | discriminate H].
Qed.

End ParserErrors.

Section FetcherClaims.

Lemma unusable_iff (r : Response) :
  unusable r = true
  <-> status_code r <> 200%Z \/ text r = ""
      \/ startswith "<!DOCTYPE" (text r) = true.
Proof.
  unfold unusable. rewrite !orb_true_iff, !negb_true_iff, Z.eqb_neq.
  assert (Ht : str_truthy (text r) = false <-> text r = "")
    by (destruct (text r); simpl; split; congruence).
  rewrite Ht. tauto.
Qed.

(** An exception of the network call leaves the fetch step as it is. *)
Lemma fetch_network_error (requests_get : string -> Result Response)
  (sym : string) (e : PyError) :
  requests_get (stooq_url sym) = Raise e ->
  fetch_historical_prices requests_get sym = Raise e.
Proof. intros Hr. unfold fetch_historical_prices. now rewrite Hr. Qed.

(** C4, as the code has it. Once the network has answered, the fetch step
    fails with NotFound (HTTP 404, "Symbol not found or data unavailable")
    exactly when the status is not 200, the body is empty, or the body
    begins with [<!DOCTYPE]; for every response with status 200 and a
    non-empty body that does not begin with that marker it proceeds to
    parsing. *)
Theorem fetch_not_found_iff (requests_get : string -> Result Response)
  (sym : string) (r : Response) :
  requests_get (stooq_url sym) = Ok r ->
  (fetch_historical_prices requests_get sym = Raise not_found
   <-> status_code r <> 200%Z \/ text r = ""
       \/ startswith "<!DOCTYPE" (text r) = true)
  /\ (status_code r = 200%Z -> text r <> "" ->
      startswith "<!DOCTYPE" (text r) = false ->
      fetch_historical_prices requests_get sym = parse_csv (text r)).
Proof.
  intros Hr. unfold fetch_historical_prices. rewrite Hr.
  unfold mbind, result_bind. rewrite <- unusable_iff.
  split.
  - destruct (unusable r); split; intros H; try reflexivity; try discriminate H.
    now apply parse_csv_not_not_found in H.
  - intros Hs Ht Hd.
    assert (Hu : unusable r = false).
    { destruct (unusable r) eqn:Hu; [| reflexivity].
      apply unusable_iff in Hu as [H | [H | H]]; congruence. }
    now rewrite Hu.
Qed.

Lemma fetch_not_found_witness :
  respond {| status_code := 200; text := sample_csv |} (stooq_url "AAPL")
  = Ok {| status_code := 200; text := sample_csv |}
  /\ (fetch_historical_prices
        (respond {| status_code := 200; text := sample_csv |}) "AAPL"
      = Raise not_found
      <-> 200%Z <> 200%Z \/ sample_csv = ""
          \/ startswith "<!DOCTYPE" sample_csv = true)
  /\ (200%Z = 200%Z -> sample_csv <> "" ->
      startswith "<!DOCTYPE" sample_csv = false ->
      fetch_historical_prices
        (respond {| status_code := 200; text := sample_csv |}) "AAPL"
      = parse_csv sample_csv).
Proof.
  split; [reflexivity |].
  exact (fetch_not_found_iff
           (respond {| status_code := 200; text := sample_csv |}) "AAPL"
           {| status_code := 200; text := sample_csv |} eq_refl).
Defined.

(** C4, as stated, fails: a 2xx response other than 200 with a usable CSV
    body is rejected with NotFound instead of being parsed. *)
Lemma fetch_rejects_other_2xx :
  is_2xx (status_code proxied_response) = true
  /\ text proxied_response <> ""
  /\ startswith "<!DOCTYPE" (text proxied_response) = false
  /\ is_ok (parse_csv (text proxied_response)) = true
  /\ fetch_historical_prices (respond proxied_response) "AAPL"
     = Raise not_found.
Proof.
  repeat split; try (vm_compute; reflexivity). discriminate.
Qed.

(** C9. Row tolerance covers short rows only: a data row with 6 fields
    whose Open field is not numeric makes the parser raise [ValueError],
    which leaves [fetch_historical_prices] and the history handler
    uncaught; without that row the same text parses, the 4-field row
    being skipped. *)
Theorem non_numeric_price_raises :
  exists raw parts,
    In parts (csv_rows raw)
    /\ (6 <= length parts)%nat
    /\ cell (csv_header raw) parts "Open" = Some "N/D"
    /\ float_of_str "N/D" = Raise ValueError
    /\ parse_csv raw = Raise ValueError
    /\ get_stock_history
         (respond {| status_code := 200; text := raw |}) "aapl"
       = Raise ValueError
    /\ exists bars, parse_csv short_row_csv = Ok bars
                    /\ map date bars = ["2024-01-02"].
Proof.
  exists bad_price_csv,
    ["2024-01-04"; "N/D"; "183.0872"; "180.88"; "181.91"; "1000"].
  split; [vm_compute; auto |].
  split; [simpl; lia |].
  repeat split; try (vm_compute; reflexivity).
  eexists. split; vm_compute; reflexivity.
Qed.

End FetcherClaims.

(** ** The favorites listing *)

Section FavoritesClaims.

Context {Value : Type}.
Variable of_str : string -> Value.
Variable to_str : Value -> string.
Variable get_documents :
  string -> gmap string Value -> nat -> Result (list (gmap string Value)).

(** A non-empty [user_id] becomes an equality filter. *)
Lemma filter_q_nonempty (u : string) :
  u <> "" -> filter_q of_str (Some u) = {[ "user_id" := of_str u ]}.
Proof. intros Hu. destruct u; [congruence | reflexivity]. Qed.

(** C10. An empty [user_id] is treated like an absent one: the store is
    queried with the empty filter, not with [{"user_id": ""}], and the
    handler's result is that of the unfiltered listing. *)
Theorem empty_user_id_unfiltered :
  filter_q of_str (Some "") = ∅
  /\ filter_q of_str (Some "") = filter_q of_str None
  /\ filter_q of_str (Some "") <> {[ "user_id" := of_str "" ]}
  /\ list_favorites of_str to_str get_documents (Some "")
     = get_documents "stockfavorite" ∅ 100 ≫= (fun docs =>
         Ok (map (rename_id of_str to_str) docs))
  /\ list_favorites of_str to_str get_documents (Some "")
     = list_favorites of_str to_str get_documents None.
Proof.
  repeat split.
  intros H. apply (f_equal (fun m => m !! "user_id")) in H.
  simpl in H. rewrite lookup_empty, lookup_singleton_eq in H. discriminate H.
Qed.

End FavoritesClaims.

(** ** The parsing loop, line by line *)

Section ParserLoop.
Local Close Scope float_scope.

Lemma column_from_found (i : nat) (header : list string) (name : string)
  (k : nat) :
  header !! k = Some name -> exists j, column_from i header name = Some j.
Proof.
  revert i k. induction header as [|h t IH]; intros i k Hk; [discriminate Hk |].
  simpl. destruct (column_from (S i) t name) eqn:E; [eauto |].
  destruct k as [|k]; simpl in Hk.
  - injection Hk as ->. rewrite String.eqb_refl. eauto.
  - destruct (IH (S i) k Hk) as [? ?]. congruence.
Qed.

(** A bound header name and its column: the last position holding it. *)
Lemma column_from_spec (i : nat) (header : list string) (name : string)
  (j : nat) :
  column_from i header name = Some j <->
  (i <= j)%nat /\ header !! (j - i)%nat = Some name
  /\ forall k, (j - i < k)%nat -> header !! k <> Some name.
Proof.
  revert i j. induction header as [|h t IH]; intros i j; simpl.
  - split; [discriminate | intros (_ & H & _); discriminate H].
  - destruct (column_from (S i) t name) as [j'|] eqn:E.
    + apply IH in E as (Hle & Hj & Hlast). split.
      * intros [= <-]. split; [lia |]. split.
        { replace (j' - i)%nat with (S (j' - S i)) by lia. exact Hj. }
        { intros k Hk. destruct k as [|k]; [lia |]. simpl. apply Hlast. lia. }
      * intros (Hij & Hn & Hl). f_equal.
        destruct (Nat.lt_trichotomy j j') as [Hlt | [-> | Hgt]]; [| reflexivity |].
        -- exfalso. apply (Hl (S (j' - S i))); [lia | exact Hj].
        -- exfalso. destruct (j - i)%nat as [|d] eqn:Hd; [lia |].
           simpl in Hn. apply (Hlast d); [lia | exact Hn].
    + assert (Hnone : forall k, t !! k <> Some name).
      { intros k Hk. destruct (column_from_found (S i) t name k Hk) as [? ?].
        congruence. }
      destruct (String.eqb_spec h name) as [->|Hne].
      * split.
        -- intros [= <-]. split; [lia |]. rewrite Nat.sub_diag. split; [reflexivity |].
           intros k Hk. destruct k as [|k]; [lia |]. simpl. apply Hnone.
        -- intros (Hij & Hn & Hl). f_equal.
           destruct (j - i)%nat as [|d] eqn:Hd; [lia |].
           simpl in Hn. now apply Hnone in Hn.
      * split; [discriminate |]. intros (Hij & Hn & Hl).
        destruct (j - i)%nat as [|d] eqn:Hd; simpl in Hn; [congruence |].
        now apply Hnone in Hn.
Qed.


Lemma parse_rows_app (idx : gmap string nat) (l1 l2 : list string)
  (data : list PriceBar) :
  parse_rows idx (l1 ++ l2)%list data
  = (d ← parse_rows idx l1 data; parse_rows idx l2 d).
Proof.
  revert data. induction l1 as [|line l1 IH]; intros data; [reflexivity |].
  simpl. destruct (_ <? _)%nat; [apply IH |].
  unfold mbind at 1 3, result_bind at 1 3.
  destruct (parse_row idx (split "," line)); [apply IH | reflexivity].
Qed.

Lemma parse_rows_short (idx : gmap string nat) (lines : list string)
  (data : list PriceBar) :
  List.filter long_line lines = [] -> parse_rows idx lines data = Ok data.
Proof.
  induction lines as [|line rest IH]; [reflexivity |].
  simpl. unfold long_line at 1.
  destruct (_ <? _)%nat; simpl; [exact IH | discriminate].
Qed.

(** A result of the loop extends [data] by one bar per line of at least 6
    fields. *)
Lemma parse_rows_ok_count (idx : gmap string nat) (lines : list string)
  (data out : list PriceBar) :
  parse_rows idx lines data = Ok out ->
  exists bars, out = (data ++ bars)%list
               /\ length bars = length (List.filter long_line lines).
Proof.
  revert data. induction lines as [|line rest IH]; intros data; simpl.
  - intros [= <-]. exists []. now rewrite app_nil_r.
  - unfold long_line at 1.
    destruct (_ <? _)%nat; simpl; [apply IH |].
    unfold mbind, result_bind.
    destruct (parse_row idx (split "," line)) as [bar|]; [| discriminate].
    intros H. apply IH in H as (bars & -> & Hl).
    exists (bar :: bars). rewrite <- app_assoc. split; [reflexivity |].
    simpl. now rewrite Hl.
Qed.

Lemma first_long_line (lines : list string) :
  List.filter long_line lines <> [] ->
  exists pre line rest,
    lines = (pre ++ line :: rest)%list
    /\ List.filter long_line pre = [] /\ long_line line = true.
Proof.
  induction lines as [|l ls IH]; [simpl; congruence |].
  simpl. destruct (long_line l) eqn:Hl.
  - intros _. exists [], l, ls. auto.
  - intros H. destruct (IH H) as (pre & line & rest & -> & Hp & Hline).
    exists (l :: pre), line, rest. split; [reflexivity |]. split; [| exact Hline].
    simpl. now rewrite Hl.
Qed.

(** The loop on a line of at least 6 fields. *)
Lemma parse_rows_long (idx : gmap string nat) (line : string)
  (rest : list string) (data : list PriceBar) :
  long_line line = true ->
  parse_rows idx (line :: rest) data
  = (bar ← parse_row idx (split "," line);
     parse_rows idx rest (data ++ [bar])%list).
Proof.
  unfold long_line. simpl. intros H. apply negb_true_iff in H. now rewrite H.
Qed.

Lemma parse_csv_unfold (raw : string) :
  parse_csv raw
  = (data ← parse_rows (build_idx (csv_header raw)) (data_lines raw) [];
     match data with
     | [] => Raise no_data
     | _ => Ok (last_n 200 data)
     end).
Proof. reflexivity. Qed.






End ParserLoop.

Section ParserExtras.
Local Close Scope float_scope.

(** X1. The loop ignores the lines with fewer than 6 fields: its outcome,
    bars or error, is that of the loop over the other lines alone. *)
Theorem short_lines_ignored (idx : gmap string nat) (lines : list string)
  (data : list PriceBar) :
  parse_rows idx lines data
  = parse_rows idx (List.filter long_line lines) data.
Proof.
  revert data. induction lines as [|line rest IH]; intros data; [reflexivity |].
  simpl List.filter. destruct (long_line line) eqn:Hl.
  - rewrite !parse_rows_long by assumption.
    unfold mbind, result_bind.
    destruct (parse_row idx (split "," line)); [apply IH | reflexivity].
  - unfold long_line in Hl. apply negb_false_iff in Hl.
    simpl. rewrite Hl. apply IH.
Qed.

(** X2. The parser answers 404 "No price data available" exactly when no
    line after the header has at least 6 fields. *)
Theorem no_data_iff (raw : string) :
  parse_csv raw = Raise no_data
  <-> List.filter long_line (data_lines raw) = [].
Proof.
  rewrite parse_csv_unfold. split.
  - intros H. apply bind_error in H as [H | (data & Hd & H)].
    + apply parse_rows_error in H. destruct H.
    + destruct data; [| discriminate H].
      apply parse_rows_ok_count in Hd as (bars & Hb & Hl).
      destruct bars; [| discriminate Hb].
      simpl in Hl. symmetry in Hl. now apply length_zero_iff_nil in Hl.
  - intros H. now rewrite parse_rows_short.
Qed.

(** X3. A data row that raises aborts the whole parse with its error, also
    after rows that were parsed: no partial result is returned. *)
Theorem first_failure_aborts (raw : string) (pre rest : list string)
  (line : string) (data : list PriceBar) (e : PyError) :
  data_lines raw = (pre ++ line :: rest)%list ->
  parse_rows (build_idx (csv_header raw)) pre [] = Ok data ->
  long_line line = true ->
  parse_row (build_idx (csv_header raw)) (split "," line) = Raise e ->
  parse_csv raw = Raise e.
Proof.
  intros Hl Hp Hlong He.
  rewrite parse_csv_unfold, Hl, parse_rows_app, Hp.
  unfold mbind at 2, result_bind at 2.
  rewrite parse_rows_long, He by assumption. reflexivity.
Qed.

Lemma first_failure_aborts_witness :
  data_lines bad_price_csv
  = (["2024-01-02,187.15,188.44,183.885,185.64,82488674";
      "2024-01-03,184.22,185.88,183.43"]
     ++ "2024-01-04,N/D,183.0872,180.88,181.91,1000" :: [])%list
  /\ long_line "2024-01-04,N/D,183.0872,180.88,181.91,1000" = true
  /\ parse_csv bad_price_csv = Raise ValueError.
Proof.
  split; [reflexivity |]. split; [reflexivity |].
  eapply (first_failure_aborts bad_price_csv
            ["2024-01-02,187.15,188.44,183.885,185.64,82488674";
             "2024-01-03,184.22,185.88,183.43"] []
            "2024-01-04,N/D,183.0872,180.88,181.91,1000").
  - reflexivity.
  - vm_compute. reflexivity.
  - reflexivity.
  - vm_compute. reflexivity.
Defined.

(** X4. The header index maps a name to the position of its last
    occurrence in the header, and has no entry for a name the header does
    not contain. *)
Theorem build_idx_last_occurrence (header : list string) (name : string) :
  (forall i, build_idx header !! name = Some i
             <-> header !! i = Some name
                 /\ forall k, (i < k)%nat -> header !! k <> Some name)
  /\ (build_idx header !! name = None
      <-> forall k, header !! k <> Some name).
Proof.
  rewrite build_idx_lookup. unfold column.
  assert (Hs : forall i, column_from 0 header name = Some i
                         <-> header !! i = Some name
                             /\ forall k, (i < k)%nat -> header !! k <> Some name).
  { intros i. rewrite column_from_spec, Nat.sub_0_r.
    split; [intros (_ & H & Hk) | intros (H & Hk)]; repeat split;
      try assumption; lia. }
  split; [exact Hs |]. split.
  - intros Hn k Hk.
    destruct (column_from_found 0 header name k Hk) as [? ?]. congruence.
  - intros Hn. destruct (column_from 0 header name) as [i|]; [| reflexivity].
    destruct (proj1 (Hs i) eq_refl) as [E _]. now apply Hn in E.
Qed.

(** X5. When no header field is called Date, a text with a line of at
    least 6 fields makes the parser raise [KeyError] for ["Date"], whatever
    the rows hold. *)
Theorem missing_date_column (raw : string) :
  (forall k, csv_header raw !! k <> Some "Date") ->
  List.filter long_line (data_lines raw) <> [] ->
  parse_csv raw = Raise (KeyError "Date").
Proof.
  intros Hh Hl.
  destruct (first_long_line _ Hl) as (pre & line & rest & E & Hp & Hlong).
  rewrite parse_csv_unfold, E, parse_rows_app, (parse_rows_short _ _ _ Hp).
  unfold mbind at 2, result_bind at 2.
  rewrite parse_rows_long by assumption.
  assert (Hrow : parse_row (build_idx (csv_header raw)) (split "," line)
                 = Raise (KeyError "Date")).
  { assert (Hg : getitem (build_idx (csv_header raw)) "Date"
                 = Raise (KeyError "Date")).
    { unfold getitem. rewrite (build_idx_lookup (csv_header raw) "Date").
      destruct (column (csv_header raw) "Date") as [i|] eqn:Hc; [| reflexivity].
      unfold column in Hc. apply column_from_spec in Hc as (_ & Hc & _).
      now apply Hh in Hc. }
    unfold parse_row, field. now rewrite Hg. }
  now rewrite Hrow.
Qed.

Lemma missing_date_column_witness :
  (forall k, csv_header no_date_csv !! k <> Some "Date")
  /\ List.filter long_line (data_lines no_date_csv) <> []
  /\ parse_csv no_date_csv = Raise (KeyError "Date").
Proof.
  assert (Hh : forall k, csv_header no_date_csv !! k <> Some "Date").
  { intros k. do 6 (destruct k as [|k]; [discriminate |]). discriminate. }
  assert (Hl : List.filter long_line (data_lines no_date_csv) <> [])
    by discriminate.
  split; [exact Hh |]. split; [exact Hl |].
  exact (missing_date_column no_date_csv Hh Hl).
Defined.

(** X6. When the parser returns, it returns one bar per line of at least 6
    fields, capped at 200, and at least one. *)
Theorem parsed_bar_count (raw : string) (bars : list PriceBar) :
  parse_csv raw = Ok bars ->
  length bars
  = Nat.min 200 (length (List.filter long_line (data_lines raw)))
  /\ (1 <= length bars)%nat.
Proof.
  rewrite parse_csv_unfold. unfold mbind, result_bind.
  destruct (parse_rows _ _ _) as [data|] eqn:Hd; [| discriminate].
  apply parse_rows_ok_count in Hd as (out & -> & Hl). simpl.
  destruct out as [|b out]; [discriminate |].
  intros [= <-]. rewrite last_n_length, Hl. split; [reflexivity |].
  rewrite <- Hl. simpl. lia.
Qed.

Lemma parsed_bar_count_witness :
  exists bars,
    parse_csv short_row_csv = Ok bars
    /\ length bars
       = Nat.min 200 (length (List.filter long_line (data_lines short_row_csv)))
    /\ (1 <= length bars)%nat.
Proof.
  eexists. split; [vm_compute; reflexivity |].
  apply (parsed_bar_count short_row_csv). vm_compute. reflexivity.
Defined.



End ParserExtras.

(** ** The symbol and the analysis response *)

Section SymbolCase.
Local Close Scope float_scope.







End SymbolCase.

Section AnalyzerExtras.
Local Open Scope float_scope.

Lemma float_ltb_irrefl (x : float) : (x <? x) = false.
Proof.
  destruct (x <? x) eqn:H; [| reflexivity].
  pose proof (ltb_asym x x H) as H'. congruence.
Qed.

Lemma outlook_of_labels (i : Indicators) :
  outlook_of i = "Bullish" \/ outlook_of i = "Bearish"
  \/ outlook_of i = "Neutral".
Proof.
  unfold outlook_of.
  destruct (_ && _); [now left |].
  destruct (_ && _); [right; now left | right; now right].
Qed.

(** What every response of the analyzer satisfies. *)
Lemma generate_invariants (sym : string) (prices : list PriceBar)
  (r : AIAnalysisResponse) :
  generate_ai_insights sym prices = Ok r ->
  symbol r = upper sym
  /\ (0.05 <=? risk_score r) = true /\ (risk_score r <=? 1) = true
  /\ (outlook r = "Bullish" \/ outlook r = "Bearish" \/ outlook r = "Neutral")
  /\ (length (key_points r) = 1%nat \/ length (key_points r) = 5%nat).
Proof.
  intros Hr.
  destruct (Nat.lt_ge_cases (length (map close prices)) 10) as [Hs|Hn].
  - unfold generate_ai_insights in Hr.
    destruct (Nat.ltb_spec (length (map close prices)) 10) as [_|?]; [| lia].
    injection Hr as <-. simpl.
    repeat split; auto.
  - rewrite generate_sufficient in Hr by assumption.
    unfold mbind, result_bind in Hr.
    destruct (indicators (map close prices)) as [i|]; [| discriminate Hr].
    injection Hr as <-. simpl.
    destruct (round_clamp_bounds (volatility i)) as [Hlo Hhi].
    split; [reflexivity |]. split; [exact Hlo |]. split; [exact Hhi |].
    split; [apply outlook_of_labels | now right].
Qed.

(** X9. Every response of the analysis endpoint carries the upper-cased
    symbol, a risk score within [[0.05, 1.0]], one of the three outlook
    labels, and one or five key points. *)
Theorem analysis_response_invariants
  (requests_get : string -> Result Response) (sym : string)
  (r : AIAnalysisResponse) :
  analyze_stock requests_get sym = Ok r ->
  symbol r = upper sym
  /\ (0.05 <=? risk_score r) = true /\ (risk_score r <=? 1) = true
  /\ (outlook r = "Bullish" \/ outlook r = "Bearish" \/ outlook r = "Neutral")
  /\ (length (key_points r) = 1%nat \/ length (key_points r) = 5%nat).
Proof.
  unfold analyze_stock, mbind, result_bind.
  destruct (fetch_historical_prices requests_get sym) as [prices|];
    [| discriminate].
  apply generate_invariants.
Qed.

Lemma analysis_response_invariants_witness :
  exists r,
    analyze_stock (respond {| status_code := 200; text := sample_csv |}) "aapl"
    = Ok r
    /\ symbol r = upper "aapl"
    /\ (0.05 <=? risk_score r) = true /\ (risk_score r <=? 1) = true
    /\ (outlook r = "Bullish" \/ outlook r = "Bearish"
        \/ outlook r = "Neutral")
    /\ (length (key_points r) = 1%nat \/ length (key_points r) = 5%nat).
Proof.
  eexists. split; [vm_compute; reflexivity |].
  apply (analysis_response_invariants
           (respond {| status_code := 200; text := sample_csv |}) "aapl").
  vm_compute. reflexivity.
Defined.

Lemma last_n_last_n {A} (k m : nat) (l : list A) :
  (k <= m)%nat -> last_n k (last_n m l) = last_n k l.
Proof.
  intros Hk. unfold last_n. rewrite length_drop, drop_drop. f_equal. lia.
Qed.

Lemma index_from_end_last_n {A} (k m : nat) (l : list A) :
  (1 <= k <= m)%nat -> (m <= length l)%nat ->
  index_from_end (last_n m l) k = index_from_end l k.
Proof.
  intros Hk Hm. unfold index_from_end.
  rewrite last_n_length.
  destruct (Nat.leb_spec k (Nat.min m (length l))) as [_|?]; [| lia].
  destruct (Nat.leb_spec k (length l)) as [_|?]; [| lia].
  unfold last_n. rewrite lookup_drop.
  replace (length l - m + (Nat.min m (length l) - k))%nat
    with (length l - k)%nat by lia.
  reflexivity.
Qed.

(** With at least 50 closes the indicators are those of the last 50. *)
Lemma indicators_last_50 (closes : list float) :
  (50 <= length closes)%nat ->
  indicators (last_n 50 closes) = indicators closes.
Proof.
  intros Hn. unfold indicators, moving_average, change_30_of, volatility_of.
  rewrite !index_from_end_last_n by lia.
  rewrite !last_n_last_n by lia.
  rewrite last_n_length.
  replace (Nat.min 20 (Nat.min 50 (length closes))) with (Nat.min 20 (length closes)) by lia.
  replace (Nat.min 50 (Nat.min 50 (length closes))) with (Nat.min 50 (length closes)) by lia.
  destruct (Nat.leb_spec 31 (Nat.min 50 (length closes))) as [_|?]; [| lia].
  destruct (Nat.leb_spec 31 (length closes)) as [_|?]; [| lia].
  reflexivity.
Qed.

(** X10. With at least 50 bars the analysis depends on the last 50 bars
    only: dropping the older ones changes nothing. *)
Theorem analysis_uses_last_50 (sym : string) (prices : list PriceBar) :
  (50 <= length prices)%nat ->
  generate_ai_insights sym (last_n 50 prices)
  = generate_ai_insights sym prices.
Proof.
  intros Hn.
  rewrite !generate_sufficient
    by (rewrite ?last_n_map, ?last_n_length, length_map; lia).
  rewrite last_n_map, indicators_last_50 by (rewrite length_map; lia).
  reflexivity.
Qed.

Lemma analysis_uses_last_50_witness :
  (50 <= length (bars_of long_60))%nat
  /\ generate_ai_insights "aapl" (last_n 50 (bars_of long_60))
     = generate_ai_insights "aapl" (bars_of long_60).
Proof.
  assert (Hn : (50 <= length (bars_of long_60))%nat) by (vm_compute; lia).
  split; [exact Hn | exact (analysis_uses_last_50 "aapl" (bars_of long_60) Hn)].
Defined.

(** X11. With 10 to 20 closes both averages run over all the closes: they
    are equal, the trend is Sideways and the outlook Neutral, whatever the
    closes. *)
Theorem few_closes_sideways (sym : string) (prices : list PriceBar) :
  (10 <= length (map close prices) <= 20)%nat ->
  exists i r,
    indicators (map close prices) = Ok i
    /\ ma20 i = ma50 i
    /\ trend_of i = "Sideways"
    /\ generate_ai_insights sym prices = Ok r
    /\ outlook r = "Neutral".
Proof.
  intros [Hlo Hhi].
  destruct (indicators_unfold _ Hlo)
    as (r0 & m20 & m50 & v & _ & E20 & E50 & _ & _ & E).
  rewrite change_30_of_short in E by lia.
  assert (Hw : moving_average 20 (map close prices)
               = moving_average 50 (map close prices)).
  { unfold moving_average, last_n.
    replace (length (map close prices) - 20)%nat with 0%nat by lia.
    replace (length (map close prices) - 50)%nat with 0%nat by lia.
    replace (Nat.min 20 (length (map close prices)))
      with (length (map close prices)) by lia.
    replace (Nat.min 50 (length (map close prices)))
      with (length (map close prices)) by lia.
    reflexivity. }
  assert (Hm : m50 = m20) by congruence.
  subst m50.
  eexists _, _. split; [exact E |]. split; [reflexivity |].
  rewrite generate_sufficient, E by assumption.
  unfold trend_of, outlook_of, trend_of. simpl.
  rewrite float_ltb_irrefl. repeat split.
Qed.

Lemma few_closes_sideways_witness :
  (10 <= length (map close (bars_of step_up_12)) <= 20)%nat
  /\ exists i r,
       indicators (map close (bars_of step_up_12)) = Ok i
       /\ ma20 i = ma50 i
       /\ trend_of i = "Sideways"
       /\ generate_ai_insights "aapl" (bars_of step_up_12) = Ok r
       /\ outlook r = "Neutral".
Proof.
  assert (Hn : (10 <= length (map close (bars_of step_up_12)) <= 20)%nat)
    by (vm_compute; lia).
  split; [exact Hn | exact (few_closes_sideways "aapl" (bars_of step_up_12) Hn)].
Defined.

End AnalyzerExtras.

(** ** The diagnostic endpoint and the listed favorites *)

Section Diagnostics.


(** X12. The diagnostic response reports the backend as running and, for
    [database_url] and [database_name], only whether the environment
    variables are set to a non-empty value: what lines 49-50 wrote, the
    name of the database included, is always replaced. *)
Theorem diagnostics_env_fields (db : option Database)
  (getenv : string -> option string) :
  test_database db getenv !! "backend" = Some (JStr "✅ Running")
  /\ test_database db getenv !! "database_url"
     = Some (JStr (if env_set getenv "DATABASE_URL"
                   then "✅ Set" else "❌ Not Set"))
  /\ test_database db getenv !! "database_name"
     = Some (JStr (if env_set getenv "DATABASE_NAME"
                   then "✅ Set" else "❌ Not Set")).
Proof.
  unfold test_database.
  destruct db as [[[name|m] [cs|m']]|]; simpl; repeat split;
    repeat (rewrite lookup_insert_eq || (rewrite lookup_insert_ne by discriminate));
    reflexivity.
Qed.


End Diagnostics.

Section FavoritesExtras.

Context {Value : Type}.
Variable of_str : string -> Value.
Variable to_str : Value -> string.
Variable get_documents :
  string -> gmap string Value -> nat -> Result (list (gmap string Value)).

Lemma rename_id_no_raw_id (d : gmap string Value) :
  rename_id of_str to_str d !! "_id" = None.
Proof.
  unfold rename_id. destruct (d !! "_id") as [v|] eqn:E; [| exact E].
  rewrite lookup_insert_ne by discriminate. apply lookup_delete_eq.
Qed.

(** X14. Whatever the store returns, the listing returns as many items, in
    the same order, and none of them has an [_id] key left. *)
Theorem listed_items_have_no_raw_id (user_id : option string)
  (items : list (gmap string Value)) :
  list_favorites of_str to_str get_documents user_id = Ok items ->
  exists docs,
    get_documents "stockfavorite" (filter_q of_str user_id) 100 = Ok docs
    /\ items = map (rename_id of_str to_str) docs
    /\ length items = length docs
    /\ Forall (fun d => d !! "_id" = None) items.
Proof.
  unfold list_favorites, mbind, result_bind.
  destruct (get_documents _ _ _) as [docs|]; [| discriminate].
  intros [= <-]. exists docs. repeat split.
  - now rewrite length_map.
  - apply List.Forall_forall. intros d Hd.
    apply in_map_iff in Hd as (d0 & <- & _). apply rename_id_no_raw_id.
Qed.

(** X15. In a listed item the [id] field is [str] of the stored [_id],
    replacing an [id] field the document may have had; a document without
    [_id] keeps its [id] field. *)
Theorem renamed_id_value (d : gmap string Value) :
  rename_id of_str to_str d !! "id"
  = match d !! "_id" with
    | Some v => Some (of_str (to_str v))
    | None => d !! "id"
    end.
Proof.
  unfold rename_id. destruct (d !! "_id") as [v|]; [| reflexivity].
  apply lookup_insert_eq.
Qed.

(** X16. Renaming the identifier leaves every other field of a document as
    it is. *)
Theorem rename_id_keeps_other_fields (d : gmap string Value) (k : string) :
  k <> "_id" -> k <> "id" ->
  rename_id of_str to_str d !! k = d !! k.
Proof.
  intros H1 H2. unfold rename_id. destruct (d !! "_id") as [v|]; [| reflexivity].
  rewrite lookup_insert_ne by congruence. now apply lookup_delete_ne.
Qed.

End FavoritesExtras.

Lemma listed_items_have_no_raw_id_witness :
  exists items,
    list_favorites (fun s => s) (fun s => s) (fun _ _ _ => Ok [stored_favorite])
      (Some "u1") = Ok items
    /\ exists docs,
         Ok [stored_favorite] = Ok docs
         /\ items = map (rename_id (fun s => s) (fun s => s)) docs
         /\ length items = length docs
         /\ Forall (fun d => d !! "_id" = None) items.
Proof.
  eexists. split; [reflexivity |].
  exact (listed_items_have_no_raw_id (fun s => s) (fun s => s)
           (fun _ _ _ => Ok [stored_favorite]) (Some "u1") _ eq_refl).
Defined.

Lemma rename_id_keeps_other_fields_witness :
  "symbol" <> "_id" /\ "symbol" <> "id"
  /\ rename_id (fun s => s) (fun s => s) stored_favorite !! "symbol"
     = stored_favorite !! "symbol".
Proof.
  assert (H1 : "symbol" <> "_id") by discriminate.
  assert (H2 : "symbol" <> "id") by discriminate.
  split; [exact H1 |]. split; [exact H2 |].
  exact (rename_id_keeps_other_fields (fun s => s) (fun s => s)
           stored_favorite "symbol" H1 H2).
Defined.
